(** * Session identity and storage: the [UserSession] class

    A shallow embedding of [src/lib/src/session/user-session.ts] and the
    properties the design document states about it.

    The class has four asynchronous methods over an injected [Store]:
    [createUserSession], [getUserSession], [getUUID] and
    [destroyUserSession].  Their collaborators live outside the file: the
    [Store] interface and the [TokenResponse] type come from the package
    [@asgardeo/auth-js], [JSON.stringify] / [JSON.parse] are built in, and
    [SessionUtils] and [AsgardeoAuthException] are sibling modules.  Each
    collaborator is an interface (a type class) here, and the methods are
    written once, for every implementation of the interfaces. *)

From Stdlib Require Import String Ascii List NArith Lia.
From stdpp Require Import gmap strings.
Import ListNotations.

Local Open Scope string_scope.
Local Open Scope list_scope.
Set Warnings "-register-all".

(** ** Exceptions and promises *)

(** What a promise can reject with (or a call can throw).  The class itself
    only ever builds [AsgardeoAuthException]s, each with a code, the name of
    the failing operation, a title and a detail message; [SyntaxError] is
    what [JSON.parse] throws on malformed text; [Error] stands for whatever
    a store implementation rejects with. *)
Inductive Exn : Type :=
| AsgardeoAuthException (code name message description : string)
| SyntaxError
| Error (message : string).

(** An exception carries the structured kind when it is one of the coded
    exceptions of the taxonomy. *)
Definition is_structured (e : Exn) : bool :=
  match e with
  | AsgardeoAuthException _ _ _ _ => true
  | _ => false
  end.

(** A settled promise. *)
Inductive Promise (A : Type) : Type :=
| Resolved (a : A)
| Rejected (e : Exn).
Arguments Resolved {A} a.
Arguments Rejected {A} e.

(** The completion of a synchronous call that may throw. *)
Inductive Completion (A : Type) : Type :=
| Normal (a : A)
| Throw (e : Exn).
Arguments Normal {A} a.
Arguments Throw {A} e.

(** ** The values [JSON] handles

    A token bundle is a plain object at run time.  The tree below covers
    objects, arrays, strings, booleans, [null] and [undefined]; a string is
    the UTF-8 text of the JavaScript string, and the properties of an
    object come in the order in which the object enumerates them.  Numbers
    are left out: a JavaScript number is a double. *)
Inductive JSValue : Type :=
| JSUndefined
| JSNull
| JSBool (b : bool)
| JSString (s : string)
| JSArray (elems : list JSValue)
| JSObject (props : list (string * JSValue)).

(** ** Collaborators *)

(** The [Store] interface of [@asgardeo/auth-js]:
    [setData(key, value): Promise<void>], [getData(key): Promise<string>],
    [removeData(key): Promise<void>], over the implementation's own state
    [St].  A call yields the promise it returns and the state in which it
    leaves the store, work in flight included; [getData] is a read. *)
Class Store (St : Type) : Type := {
  setData : string -> string -> St -> Promise unit * St;
  getData : string -> St -> Promise string;
  removeData : string -> St -> Promise unit * St
}.

Module SessionUtils.
(** Modelled from the spec: [SessionUtils.createUUID] and
    [SessionUtils.validateUUID] of [../utils], which is not among the
    sources.  The deriver is a pure function of the subject with no I/O
    (section 4.1); the class detects a failed derivation by a falsy, that
    is empty, result.  The validator is a pure structural check that never
    throws (section 4.2). *)
Class Impl : Type := {
  createUUID : string -> string;
  validateUUID : string -> bool
}.
End SessionUtils.

Module JSON.
(** The two built-ins [JSON.stringify] and [JSON.parse]; [parse] throws on
    text it cannot read. *)
Class Impl : Type := {
  stringify : JSValue -> string;
  parse : string -> Completion JSValue
}.
End JSON.

(** ** Asynchronous methods

    A method runs against a world: the store behind [_sessionStore], the
    store calls issued so far (oldest first), and the exceptions of rejected
    promises that nothing awaited or returned. *)
Inductive StoreCall : Type :=
| SetData (key value : string)
| GetData (key : string)
| RemoveData (key : string).

Record World (St : Type) : Type := mkWorld {
  _sessionStore : St;
  storeCalls : list StoreCall;
  unhandledRejections : list Exn
}.
Arguments mkWorld {St} _ _ _.
Arguments _sessionStore {St} _.
Arguments storeCalls {St} _.
Arguments unhandledRejections {St} _.

(** The body of an [async] function: it settles its promise and leaves a
    world behind. *)
Definition Async (St A : Type) : Type := World St -> Promise A * World St.

(** What a promise leaves behind when nothing handles it. *)
Definition leftover {A} (p : Promise A) : list Exn :=
  match p with
  | Resolved _ => []
  | Rejected e => [e]
  end.

Module Async.
Section Ops.
Context {St : Type}.

(** [return Promise.resolve(a)], or [return a]. *)
Definition resolve {A} (a : A) : Async St A := fun w => (Resolved a, w).

(** [return Promise.reject(e)], or an uncaught [throw e]. *)
Definition reject {A} (e : Exn) : Async St A := fun w => (Rejected e, w).

(** Sequencing: the rest of the body runs only when the step resolved. *)
Definition bind {A B} (m : Async St A) (k : A -> Async St B) : Async St B :=
  fun w =>
    match m w with
    | (Resolved a, w') => k a w'
    | (Rejected e, w') => (Rejected e, w')
    end.

(** [await p]. *)
Definition await {A} (p : Promise A) : Async St A := fun w => (p, w).

(** A promise that the body neither awaits nor returns: the body goes on
    whatever its state, and a rejection stays unhandled. *)
Definition dropped {A} (p : Promise A) : Async St unit :=
  fun w =>
    (Resolved tt,
     mkWorld (_sessionStore w) (storeCalls w)
       (unhandledRejections w ++ leftover p)).

(** A synchronous call that may throw, inside the body. *)
Definition call {A} (c : Completion A) : Async St A :=
  fun w =>
    match c with
    | Normal a => (Resolved a, w)
    | Throw e => (Rejected e, w)
    end.
End Ops.
End Async.

Declare Scope async_scope.
Delimit Scope async_scope with async.
Notation "x <- m ;; k" := (Async.bind m (fun x => k))
  (at level 100, m at next level, right associativity) : async_scope.
Notation "m ;; k" := (Async.bind m (fun _ => k))
  (at level 100, right associativity) : async_scope.

(** JavaScript's [!s] on a string: only the empty string is falsy. *)
Definition falsy (s : string) : bool := String.eqb s "".

(** ** The class [UserSession] *)
Module UserSession.
Section Methods.
Context {St : Type} {store : Store St}.
Context {utils : SessionUtils.Impl} {json : JSON.Impl}.
Local Open Scope async_scope.

(** The three calls on [this._sessionStore]; each is recorded and yields
    the promise the store returned. *)
Definition store_setData (key value : string) : Async St (Promise unit) :=
  fun w =>
    let '(p, st) := setData key value (_sessionStore w) in
    (Resolved p,
     mkWorld st (storeCalls w ++ [SetData key value]) (unhandledRejections w)).

Definition store_getData (key : string) : Async St (Promise string) :=
  fun w =>
    (Resolved (getData key (_sessionStore w)),
     mkWorld (_sessionStore w) (storeCalls w ++ [GetData key])
       (unhandledRejections w)).

Definition store_removeData (key : string) : Async St (Promise unit) :=
  fun w =>
    let '(p, st) := removeData key (_sessionStore w) in
    (Resolved p,
     mkWorld st (storeCalls w ++ [RemoveData key]) (unhandledRejections w)).

(** The exceptions the class builds. *)
Definition NODE_CORE_CUS1_NF01 : Exn :=
  AsgardeoAuthException "NODE_CORE-CUS1-NF01" "createUID()"
    "Creating UID failed" "Could not create a UUID for the session.".

Definition NODE_CORE_DUS1_NF01 : Exn :=
  AsgardeoAuthException "NODE_CORE-DUS1-NF01" "destroyUserSession()"
    "User UUID is not found" "No user UUID has passed as a parameter ".

Definition AUTH_CORE_RAT1_NV01 : Exn :=
  AsgardeoAuthException "AUTH_CORE-RAT1-NV01" "removeData()"
    "Destroying session failed" "The provided UUID is not valid.".

(** [createUserSession(sub, sessionData)].  The promise of [setData] is
    bound to [new_session] and never awaited or returned. *)
Definition createUserSession (sub : string) (sessionData : JSValue)
  : Async St string :=
  let user_uuid := SessionUtils.createUUID sub in
  if falsy user_uuid then
    Async.reject NODE_CORE_CUS1_NF01
  else
    new_session <- store_setData user_uuid (JSON.stringify sessionData) ;;
    Async.dropped new_session ;;
    Async.resolve user_uuid.

(** [getUserSession(uuid)]. *)
Definition getUserSession (uuid : string) : Async St JSValue :=
  pending <- store_getData uuid ;;
  sessionData <- Async.await pending ;;
  parsed <- Async.call (JSON.parse sessionData) ;;
  Async.resolve parsed.

(** [getUUID(sub)]. *)
Definition getUUID (sub : string) : Async St string :=
  let uuid := SessionUtils.createUUID sub in
  Async.resolve uuid.

(** [destroyUserSession(uuid)].  In the first [if] the rejected promise is
    an expression statement: it is built, not returned.  (The assignment
    [uuid = ""] after the removal changes a local only and is left out.) *)
Definition destroyUserSession (uuid : string) : Async St bool :=
  (if falsy uuid then
     Async.dropped (A := bool) (Rejected NODE_CORE_DUS1_NF01)
   else
     Async.resolve tt) ;;
  isValidUUID <- Async.await (Resolved (SessionUtils.validateUUID uuid)) ;;
  if (isValidUUID : bool) then
    pending <- store_removeData uuid ;;
    removed <- Async.await pending ;;
    Async.resolve true
  else
    Async.reject AUTH_CORE_RAT1_NV01.
End Methods.
End UserSession.


(** ** The contract of the store

    Section 6 of the design: [setData] writes the value at the key,
    [getData] returns the value at the key and fails with a not-found
    signal when the key is absent, [removeData] removes the key and is not
    an error on an absent key.  An implementation meets the contract through
    a view of its state as a finite map from keys to values.  Such a store
    has done the work of a call when the call returns: nothing is left in
    flight. *)
Class StoreContract (St : Type) {store : Store St} : Type := {
  contents : St -> gmap string string;
  not_found : Exn;
  getData_contents : forall key st,
    getData key st =
    match contents st !! key with
    | Some value => Resolved value
    | None => Rejected not_found
    end;
  setData_contents : forall key value st,
    fst (setData key value st) = Resolved tt /\
    contents (snd (setData key value st)) = <[key:=value]> (contents st);
  removeData_contents : forall key st,
    fst (removeData key st) = Resolved tt /\
    contents (snd (removeData key st)) = delete key (contents st)
}.

(** ** Stores whose writes complete later

    [setData] returns a promise, and a caller that does not await it goes
    on while the write may still be in flight.  [visible] is what a read
    issued now finds, and [completed] is the state once every call in
    flight has completed; a write shows in the completed store, after the
    writes issued before it. *)
Class EventualStore (St : Type) {store : Store St} : Type := {
  visible : St -> gmap string string;
  completed : St -> St;
  missing : Exn;
  getData_visible : forall key st,
    getData key st =
    match visible st !! key with
    | Some value => Resolved value
    | None => Rejected missing
    end;
  setData_completed : forall key value st,
    fst (setData key value st) = Resolved tt /\
    visible (completed (snd (setData key value st))) =
      <[key:=value]> (visible (completed st))
}.

(** The world once the store calls in flight have completed. *)
Definition after_completion {St : Type} {store : Store St}
    {eventual : EventualStore St} (w : World St) : World St :=
  mkWorld (completed (_sessionStore w)) (storeCalls w) (unhandledRejections w).

(** ** Implementations to run the class on *)
Module Demo.

(** A store kept in memory: the state is the map itself. *)
Definition memory : Store (gmap string string) := {|
  setData key value m := (Resolved tt, <[key:=value]> m);
  getData key m :=
    match m !! key with
    | Some value => Resolved value
    | None => Rejected (Error "not found")
    end;
  removeData key m := (Resolved tt, delete key m)
|}.

(** The writes in flight, landing on the map in the order of their issue. *)
Definition land (writes : list (string * string)) (m : gmap string string)
  : gmap string string :=
  fold_left (fun m kv => <[fst kv := snd kv]> m) writes m.

(** A store whose writes complete after [setData] has returned its
    promise: the state is the map as reads find it, with the writes in
    flight.  The promise of a write is given by what it settles to.  A
    removal, which its caller awaits, completes after the writes issued
    before it. *)
Definition deferred : Store (gmap string string * list (string * string)) := {|
  setData key value st := (Resolved tt, (fst st, snd st ++ [(key, value)]));
  getData key st :=
    match fst st !! key with
    | Some value => Resolved value
    | None => Rejected (Error "not found")
    end;
  removeData key st := (Resolved tt, (delete key (land (snd st) (fst st)), []))
|}.

(** A store that is down: every call rejects and nothing is kept. *)
Definition unavailable : Store unit := {|
  setData _ _ st := (Rejected (Error "store unavailable"), st);
  getData _ _ := Rejected (Error "store unavailable");
  removeData _ st := (Rejected (Error "store unavailable"), st)
|}.

(** *** A deriver and a validator *)

Definition hex_digit (n : N) : ascii :=
  match n with
  | 10 => "a" | 11 => "b" | 12 => "c" | 13 => "d" | 14 => "e" | 15 => "f"
  | _ => ascii_of_N (48 + n)
  end%N%char.

Fixpoint hex (digits : nat) (n : N) : string :=
  match digits with
  | O => ""
  | S d => hex d (n / 16) +:+ String (hex_digit (n mod 16)) ""
  end.

(** A 120-bit digest of the subject (a polynomial hash; any fixed one-way
    transform takes this place). *)
Fixpoint digest (acc : N) (sub : string) : N :=
  match sub with
  | "" => acc
  | String c rest =>
      digest ((acc * 1099511628211 + N_of_ascii c) mod 2 ^ 120)%N rest
  end.

Definition is_hex (c : ascii) : bool :=
  let n := N_of_ascii c in
  ((48 <=? n) && (n <=? 57) || (97 <=? n) && (n <=? 102) ||
   (65 <=? n) && (n <=? 70))%N.

(** [shape] is matched position by position: [x] stands for a hexadecimal
    digit, [y] for one of [8 9 a b], any other character for itself; both
    strings must end together. *)
Fixpoint has_shape (shape candidate : string) : bool :=
  match shape, candidate with
  | "", "" => true
  | String p shape', String c candidate' =>
      (if Ascii.eqb p "x" then is_hex c
       else if Ascii.eqb p "y" then
         Ascii.eqb c "8" || Ascii.eqb c "9" ||
         Ascii.eqb c "a" || Ascii.eqb c "b"
       else Ascii.eqb p c)
      && has_shape shape' candidate'
  | _, _ => false
  end.

(** Modelled from the spec: an implementation of [SessionUtils] in the
    manner of sections 4.1 and 4.2, standing in for [../utils].
    [createUUID] fails (empty result) on the empty subject and otherwise
    lays a digest of the subject out as a name-based identifier;
    [validateUUID] accepts exactly the strings of that layout. *)
Definition utils : SessionUtils.Impl := {|
  SessionUtils.createUUID := fun sub =>
    if falsy sub then ""
    else
      let h := hex 30 (digest 14695981039346656037 sub) in
      substring 0 8 h +:+ "-" +:+ substring 8 4 h +:+ "-5" +:+
      substring 12 3 h +:+ "-a" +:+ substring 15 3 h +:+ "-" +:+
      substring 18 12 h;
  SessionUtils.validateUUID := has_shape "xxxxxxxx-xxxx-5xxx-yxxx-xxxxxxxxxxxx"
|}.

(** *** A serializer and a parser *)

Definition dquote : ascii := "034"%char.
Definition backslash : ascii := "092"%char.

(** The characters [JSON.stringify] escapes: the quote, the backslash and
    the control characters; every other byte of the UTF-8 text stands for
    itself.  (A lone surrogate, which [JSON.stringify] writes as an escape,
    has no UTF-8 text.) *)
Definition escape_char (c : ascii) : string :=
  if Ascii.eqb c dquote then String backslash (String dquote "")
  else if Ascii.eqb c backslash then String backslash (String backslash "")
  else if Ascii.eqb c "008" then String backslash "b"
  else if Ascii.eqb c "009" then String backslash "t"
  else if Ascii.eqb c "010" then String backslash "n"
  else if Ascii.eqb c "012" then String backslash "f"
  else if Ascii.eqb c "013" then String backslash "r"
  else if (N_of_ascii c <? 32)%N then
    String backslash "u00" +:+ hex 2 (N_of_ascii c)
  else String c "".

Fixpoint escape (s : string) : string :=
  match s with
  | "" => ""
  | String c rest => escape_char c +:+ escape rest
  end.

Definition quote (s : string) : string :=
  String dquote (escape s) +:+ String dquote "".

Fixpoint join (sep : string) (parts : list string) : string :=
  match parts with
  | [] => ""
  | [p] => p
  | p :: rest => p +:+ sep +:+ join sep rest
  end.

(** The text of a value, as [JSON.stringify] builds it: [undefined] has no
    text; as an element of an array it is written [null], and as the value
    of a property it makes the property disappear. *)
Fixpoint serialize (v : JSValue) : option string :=
  match v with
  | JSUndefined => None
  | JSNull => Some "null"
  | JSBool true => Some "true"
  | JSBool false => Some "false"
  | JSString s => Some (quote s)
  | JSArray elems =>
      Some ("[" +:+
            join ","
              (List.map (fun e => default "null" (serialize e)) elems)
            +:+ "]")
  | JSObject props =>
      Some ("{" +:+
            join ","
              ((fix members (ps : list (string * JSValue)) : list string :=
                  match ps with
                  | [] => []
                  | p :: ps' =>
                      match serialize (snd p) with
                      | Some text =>
                          (quote (fst p) +:+ ":" +:+ text) :: members ps'
                      | None => members ps'
                      end
                  end) props)
            +:+ "}")
  end.

(** [JSON.stringify(undefined)] is [undefined], not a text.  The store
    takes a string: the word a JavaScript store would make of the value
    stands for it, which [JSON.parse] refuses all the same.  A bundle is an
    object and always has a text. *)
Definition stringify (v : JSValue) : string :=
  default "undefined" (serialize v).

Definition is_ws (c : ascii) : bool :=
  Ascii.eqb c " " || Ascii.eqb c "009" || Ascii.eqb c "010" ||
  Ascii.eqb c "013".

Fixpoint skip_ws (s : string) : string :=
  match s with
  | String c rest => if is_ws c then skip_ws rest else s
  | "" => s
  end.

Definition hex_value (c : ascii) : option N :=
  let n := N_of_ascii c in
  if ((48 <=? n) && (n <=? 57))%N then Some (n - 48)%N
  else if ((97 <=? n) && (n <=? 102))%N then Some (n - 87)%N
  else if ((65 <=? n) && (n <=? 70))%N then Some (n - 55)%N
  else None.

Definition unescape (c : ascii) : option ascii :=
  if Ascii.eqb c dquote then Some dquote
  else if Ascii.eqb c backslash then Some backslash
  else if Ascii.eqb c "/" then Some "/"%char
  else if Ascii.eqb c "b" then Some "008"%char
  else if Ascii.eqb c "t" then Some "009"%char
  else if Ascii.eqb c "n" then Some "010"%char
  else if Ascii.eqb c "f" then Some "012"%char
  else if Ascii.eqb c "r" then Some "013"%char
  else None.

(** The code unit that four hexadecimal digits name. *)
Definition hex4 (a b c d : ascii) : option N :=
  match hex_value a, hex_value b, hex_value c, hex_value d with
  | Some x, Some y, Some z, Some w => Some (4096 * x + 256 * y + 16 * z + w)%N
  | _, _, _, _ => None
  end.

(** The UTF-8 bytes of a code point (of a lone surrogate too, written like
    any other three-byte code point). *)
Definition utf8 (cp : N) : string :=
  (if cp <? 128 then String (ascii_of_N cp) ""
   else if cp <? 2048 then
     String (ascii_of_N (192 + cp / 64))
       (String (ascii_of_N (128 + cp mod 64)) "")
   else if cp <? 65536 then
     String (ascii_of_N (224 + cp / 4096))
       (String (ascii_of_N (128 + (cp / 64) mod 64))
          (String (ascii_of_N (128 + cp mod 64)) ""))
   else
     String (ascii_of_N (240 + cp / 262144))
       (String (ascii_of_N (128 + (cp / 4096) mod 64))
          (String (ascii_of_N (128 + (cp / 64) mod 64))
             (String (ascii_of_N (128 + cp mod 64)) ""))))%N.

Definition is_high_surrogate (u : N) : bool :=
  ((55296 <=? u) && (u <? 56320))%N.
Definition is_low_surrogate (u : N) : bool :=
  ((56320 <=? u) && (u <? 57344))%N.

(** The low surrogate that an escape at the head of [s] names, with what
    follows the escape. *)
Definition low_surrogate_escape (s : string) : option (N * string) :=
  match s with
  | String e (String "u" (String a (String b (String c (String d rest))))) =>
      if Ascii.eqb e backslash then
        match hex4 a b c d with
        | Some l => if is_low_surrogate l then Some (l, rest) else None
        | None => None
        end
      else None
  | _ => None
  end.

(** The characters of a string literal, after its opening quote, up to and
    including the closing one.  A [\u] escape gives the UTF-8 bytes of its
    code unit, or of the code point of a surrogate pair. *)
Fixpoint parse_chars (s : string) : option (string * string) :=
  match s with
  | "" => None
  | String c rest =>
      if Ascii.eqb c dquote then Some ("", rest)
      else if Ascii.eqb c backslash then
        match rest with
        | String "u" (String h1 (String h2 (String h3 (String h4 rest')))) =>
            match hex4 h1 h2 h3 h4 with
            | Some u =>
                if is_high_surrogate u then
                  match rest' with
                  | String e (String "u" (String l1 (String l2 (String l3
                      (String l4 rest''))))) =>
                      match low_surrogate_escape rest' with
                      | Some (l, _) =>
                          match parse_chars rest'' with
                          | Some (str, rest3) =>
                              Some (utf8 (65536 + (u - 55296) * 1024
                                          + (l - 56320)) +:+ str, rest3)
                          | None => None
                          end
                      | None =>
                          match parse_chars rest' with
                          | Some (str, rest3) => Some (utf8 u +:+ str, rest3)
                          | None => None
                          end
                      end
                  | _ =>
                      match parse_chars rest' with
                      | Some (str, rest3) => Some (utf8 u +:+ str, rest3)
                      | None => None
                      end
                  end
                else
                  match parse_chars rest' with
                  | Some (str, rest3) => Some (utf8 u +:+ str, rest3)
                  | None => None
                  end
            | None => None
            end
        | String e rest' =>
            match unescape e, parse_chars rest' with
            | Some c', Some (str, rest'') => Some (String c' str, rest'')
            | _, _ => None
            end
        | "" => None
        end
      else if (N_of_ascii c <? 32)%N then None
      else
        match parse_chars rest with
        | Some (str, rest') => Some (String c str, rest')
        | None => None
        end
  end.

(** An array index: the decimal writing, with no leading zero, of a number
    below 2^32 - 1.  An object enumerates the properties with such keys
    first, in ascending order, and the other properties after them in the
    order of their creation. *)
Definition is_digit (c : ascii) : bool :=
  ((48 <=? N_of_ascii c) && (N_of_ascii c <=? 57))%N.

Fixpoint decimal (acc : N) (s : string) : option N :=
  match s with
  | "" => Some acc
  | String c rest =>
      if is_digit c then decimal (10 * acc + (N_of_ascii c - 48))%N rest
      else None
  end.

Definition is_array_index (key : string) : bool :=
  match key with
  | "" => false
  | String "0" "" => true
  | String "0" _ => false
  | _ =>
      match decimal 0 key with
      | Some n => Nat.leb (String.length key) 10 && (n <? 4294967295)%N
      | None => false
      end
  end.

Definition index_value (key : string) : N := default 0%N (decimal 0 key).

Fixpoint lookup_property (key : string) (props : list (string * JSValue))
  : option JSValue :=
  match props with
  | [] => None
  | p :: props' =>
      if String.eqb key (fst p) then Some (snd p)
      else lookup_property key props'
  end.

Fixpoint remove_property (key : string) (props : list (string * JSValue))
  : list (string * JSValue) :=
  match props with
  | [] => []
  | p :: props' =>
      if String.eqb key (fst p) then remove_property key props'
      else p :: remove_property key props'
  end.

(** A new array-index property, among the array-index properties. *)
Fixpoint insert_index (key : string) (v : JSValue)
    (props : list (string * JSValue)) : list (string * JSValue) :=
  match props with
  | [] => [(key, v)]
  | p :: props' =>
      if is_array_index (fst p) && (index_value (fst p) <? index_value key)%N
      then p :: insert_index key v props'
      else (key, v) :: props
  end.

(** A new property of another key, before the ones created later. *)
Fixpoint insert_first (key : string) (v : JSValue)
    (props : list (string * JSValue)) : list (string * JSValue) :=
  match props with
  | [] => [(key, v)]
  | p :: props' =>
      if is_array_index (fst p) then p :: insert_first key v props'
      else (key, v) :: props
  end.

(** The member [key : v] read before the members that gave [props]: a
    later member of the same key keeps its value, and the property stands
    where the first member of the key puts it. *)
Definition define_property (key : string) (v : JSValue)
    (props : list (string * JSValue)) : list (string * JSValue) :=
  match lookup_property key props with
  | Some later =>
      if is_array_index key then props
      else insert_first key later (remove_property key props)
  | None =>
      if is_array_index key then insert_index key v props
      else insert_first key v props
  end.

Definition expect (word : string) (v : JSValue) (s : string)
  : option (JSValue * string) :=
  if String.prefix word s
  then Some (v, substring (String.length word) (String.length s) s)
  else None.

(** A recursive-descent parser; [fuel] bounds the depth of the descent.
    The grammar has no numbers: a text with one is refused. *)
Fixpoint parse_value (fuel : nat) (s : string) : option (JSValue * string) :=
  match fuel with
  | O => None
  | S fuel' =>
      match skip_ws s with
      | "" => None
      | String c rest =>
          if Ascii.eqb c "n" then expect "ull" JSNull rest
          else if Ascii.eqb c "t" then expect "rue" (JSBool true) rest
          else if Ascii.eqb c "f" then expect "alse" (JSBool false) rest
          else if Ascii.eqb c dquote then
            match parse_chars rest with
            | Some (str, rest') => Some (JSString str, rest')
            | None => None
            end
          else if Ascii.eqb c "[" then
            match skip_ws rest with
            | String "]" rest' => Some (JSArray [], rest')
            | _ =>
                match parse_elements fuel' rest with
                | Some (elems, rest') => Some (JSArray elems, rest')
                | None => None
                end
            end
          else if Ascii.eqb c "{" then
            match skip_ws rest with
            | String "}" rest' => Some (JSObject [], rest')
            | _ =>
                match parse_members fuel' rest with
                | Some (props, rest') => Some (JSObject props, rest')
                | None => None
                end
            end
          else None
      end
  end
with parse_elements (fuel : nat) (s : string)
  : option (list JSValue * string) :=
  match fuel with
  | O => None
  | S fuel' =>
      match parse_value fuel' s with
      | Some (v, rest) =>
          match skip_ws rest with
          | String "]" rest' => Some ([v], rest')
          | String "," rest' =>
              match parse_elements fuel' rest' with
              | Some (vs, rest'') => Some (v :: vs, rest'')
              | None => None
              end
          | _ => None
          end
      | None => None
      end
  end
with parse_members (fuel : nat) (s : string)
  : option (list (string * JSValue) * string) :=
  match fuel with
  | O => None
  | S fuel' =>
      match skip_ws s with
      | String c rest =>
          if Ascii.eqb c dquote then
            match parse_chars rest with
            | Some (key, rest') =>
                match skip_ws rest' with
                | String ":" rest'' =>
                    match parse_value fuel' rest'' with
                    | Some (v, rest3) =>
                        match skip_ws rest3 with
                        | String "}" rest4 => Some ([(key, v)], rest4)
                        | String "," rest4 =>
                            match parse_members fuel' rest4 with
                            | Some (ps, rest5) =>
                                Some (define_property key v ps, rest5)
                            | None => None
                            end
                        | _ => None
                        end
                    | None => None
                    end
                | _ => None
                end
            | None => None
            end
          else None
      | "" => None
      end
  end.

Definition parse (text : string) : Completion JSValue :=
  match parse_value (2 * String.length text + 2) text with
  | Some (v, rest) =>
      match skip_ws rest with
      | "" => Normal v
      | _ => Throw SyntaxError
      end
  | None => Throw SyntaxError
  end.

Definition json : JSON.Impl :=
  {| JSON.stringify := stringify; JSON.parse := parse |}.

(** *** Concrete runs *)

Definition create := @UserSession.createUserSession _ memory utils json.
Definition get := @UserSession.getUserSession _ memory json.
Definition destroy := @UserSession.destroyUserSession _ memory utils.

(** A fresh process over a store with the given state. *)
Definition start {St : Type} (st : St) : World St := mkWorld st [] [].

(** A token bundle at run time: an object whose properties are strings. *)
Definition token_bundle (fields : list (string * string)) : JSValue :=
  JSObject (List.map (fun kv => (fst kv, JSString (snd kv))) fields).

(** The text of one property of a token bundle. *)
Definition member (kv : string * string) : string :=
  quote (fst kv) +:+ ":" +:+ quote (snd kv).

(** The keys of a token bundle, as an object has them: no key twice, and
    no array index among them (an object would enumerate those first). *)
Fixpoint distinct (keys : list string) : bool :=
  match keys with
  | [] => true
  | key :: keys' => negb (existsb (String.eqb key) keys') && distinct keys'
  end.

Definition plain_keys (fields : list (string * string)) : bool :=
  distinct (List.map fst fields) &&
  forallb (fun kv => negb (is_array_index (fst kv))) fields.

(** The bundle and the subject of the end-to-end scenario of section 8. *)
Definition bundle : JSValue :=
  token_bundle [("accessToken", "AT1"); ("idToken", "IT1")].

Definition user42 : string := "decfa185-7ce9-5e6f-a4ce-b8bdf3b8e14b".
End Demo.

(** The in-memory store meets the contract: its state is its contents. *)
Definition memory_contract : @StoreContract (gmap string string) Demo.memory.
Proof.
  refine {| contents := fun m => m; not_found := Error "not found" |};
    intros; try split; reflexivity.
Defined.

(** A store that meets the contract completes its writes at once. *)
Definition contract_eventual {St : Type} {store : Store St}
    (contract : StoreContract St) : EventualStore St.
Proof.
  refine {| visible := contents; completed := fun st => st;
            missing := not_found |}.
  - exact getData_contents.
  - exact setData_contents.
Defined.

(** The deferred store completes its writes in the order of their issue. *)
Definition deferred_eventual : @EventualStore _ Demo.deferred.
Proof.
  refine {| visible := fst;
            completed := fun st => (Demo.land (snd st) (fst st), []);
            missing := Error "not found" |}.
  - reflexivity.
  - intros key value [m writes]. split; [reflexivity|].
    cbn [Demo.deferred setData fst snd]. unfold Demo.land.
    rewrite fold_left_app. reflexivity.
Defined.

(** A store that already holds the session of the scenario's subject. *)
Definition signed_in : World (gmap string string) :=
  Demo.start {[ Demo.user42 := Demo.stringify Demo.bundle ]}.

(** A store whose record for the subject is not JSON text. *)
Definition corrupted : World (gmap string string) :=
  Demo.start {[ Demo.user42 := "not json" ]}.

(** ** What one call does

    Each method unfolds to a single case analysis on what its collaborators
    return; the properties below are read off these equations. *)
Section Equations.
Context {St : Type} {store : Store St}.
Context {utils : SessionUtils.Impl} {json : JSON.Impl}.
Import UserSession SessionUtils.

Lemma createUserSession_eq
    (sub : string) (sessionData : JSValue) (w : World St) :
  createUserSession sub sessionData w =
  if falsy (createUUID sub) then (Rejected NODE_CORE_CUS1_NF01, w)
  else
    let key := createUUID sub in
    let value := JSON.stringify sessionData in
    let r := setData key value (_sessionStore w) in
    (Resolved key,
     mkWorld (snd r) (storeCalls w ++ [SetData key value])
       (unhandledRejections w ++ leftover (fst r))).
Proof.
  unfold createUserSession.
  destruct (falsy (createUUID sub)); [reflexivity|].
  unfold Async.bind, store_setData, Async.dropped, Async.resolve; simpl.
  destruct (setData _ _ _) as [p st]; reflexivity.
Qed.

Lemma getUserSession_eq (uuid : string) (w : World St) :
  getUserSession uuid w =
  (match getData uuid (_sessionStore w) with
   | Resolved sessionData =>
       match JSON.parse sessionData with
       | Normal parsed => Resolved parsed
       | Throw e => Rejected e
       end
   | Rejected e => Rejected e
   end,
   mkWorld (_sessionStore w) (storeCalls w ++ [GetData uuid])
     (unhandledRejections w)).
Proof.
  unfold getUserSession, Async.bind, store_getData, Async.await, Async.call,
    Async.resolve; simpl.
  destruct (getData _ _) as [v|e]; [|reflexivity].
  destruct (JSON.parse v); reflexivity.
Qed.

Lemma getUUID_eq (sub : string) (w : World St) :
  getUUID sub w = (Resolved (createUUID sub), w).
Proof. reflexivity. Qed.

Lemma destroyUserSession_eq (uuid : string) (w : World St) :
  destroyUserSession uuid w =
  let w1 :=
    if falsy uuid then
      mkWorld (_sessionStore w) (storeCalls w)
        (unhandledRejections w ++ [NODE_CORE_DUS1_NF01])
    else w in
  if validateUUID uuid then
    let r := removeData uuid (_sessionStore w1) in
    (match fst r with
     | Resolved _ => Resolved true
     | Rejected e => Rejected e
     end,
     mkWorld (snd r) (storeCalls w1 ++ [RemoveData uuid])
       (unhandledRejections w1))
  else (Rejected AUTH_CORE_RAT1_NV01, w1).
Proof.
  unfold destroyUserSession, Async.bind, Async.dropped, Async.resolve,
    Async.await, Async.reject, store_removeData.
  destruct (falsy uuid); simpl;
    (destruct (validateUUID uuid); [|reflexivity]); simpl;
    destruct (removeData _ _) as [[[]|e] st]; reflexivity.
Qed.
End Equations.

(** ** Properties that hold over every store *)
Section AnyStore.
Context {St : Type} {store : Store St}.
Context {utils : SessionUtils.Impl} {json : JSON.Impl}.
Import UserSession SessionUtils.

(** C1. [destroyUserSession] on the empty identifier does not fail with the
    missing-identifier exception [NODE_CORE-DUS1-NF01]: that rejection is
    built but not returned, so it is left unhandled and the method goes on
    to the validator.  The outcome is the invalid-identifier exception
    [AUTH_CORE-RAT1-NV01] when the validator refuses the empty string, with
    no store call; were the validator to accept it, [removeData] would be
    called on the empty key. *)
Theorem destroyUserSession_empty_id (w : World St) :
  fst (destroyUserSession "" w) =
    (if validateUUID "" then
       match fst (removeData "" (_sessionStore w)) with
       | Resolved _ => Resolved true
       | Rejected e => Rejected e
       end
     else Rejected AUTH_CORE_RAT1_NV01) /\
  unhandledRejections (snd (destroyUserSession "" w)) =
    unhandledRejections w ++ [NODE_CORE_DUS1_NF01] /\
  storeCalls (snd (destroyUserSession "" w)) =
    storeCalls w ++ (if validateUUID "" then [RemoveData ""] else []).
Proof.
  rewrite destroyUserSession_eq. cbn [falsy String.eqb].
  destruct (validateUUID "");
    cbn [fst snd storeCalls unhandledRejections _sessionStore].
  - repeat split; reflexivity.
  - rewrite app_nil_r. repeat split; reflexivity.
Qed.

(** C3. For every non-empty identifier that the validator rejects,
    [destroyUserSession] fails with the invalid-identifier exception
    [AUTH_CORE-RAT1-NV01] and leaves the world as it was: no store call is
    issued, so [removeData] never sees the identifier. *)
Theorem destroyUserSession_invalid_id (uuid : string) (w : World St) :
  falsy uuid = false ->
  validateUUID uuid = false ->
  destroyUserSession uuid w = (Rejected AUTH_CORE_RAT1_NV01, w).
Proof.
  intros Hne Hbad. rewrite destroyUserSession_eq, Hne, Hbad. reflexivity.
Qed.

(** C5. When the derivation of the session id fails (the deriver returns a
    falsy identifier), [createUserSession] rejects with the exception
    [NODE_CORE-CUS1-NF01] and the world, the store included, is unchanged:
    no store call is issued. *)
Theorem createUserSession_derivation_fails
    (sub : string) (sessionData : JSValue) (w : World St) :
  falsy (createUUID sub) = true ->
  createUserSession sub sessionData w = (Rejected NODE_CORE_CUS1_NF01, w).
Proof.
  intros Hfail. rewrite createUserSession_eq, Hfail. reflexivity.
Qed.

(** C7. A failing [setData] does not make [createUserSession] reject: the
    promise of the write is never awaited, so the method resolves with the
    session id all the same and the store's rejection is left unhandled. *)
Theorem createUserSession_swallows_setData_failure
    (sub : string) (sessionData : JSValue) (w : World St) (e : Exn) :
  falsy (createUUID sub) = false ->
  fst (setData (createUUID sub) (JSON.stringify sessionData) (_sessionStore w))
    = Rejected e ->
  fst (createUserSession sub sessionData w) = Resolved (createUUID sub) /\
  unhandledRejections (snd (createUserSession sub sessionData w)) =
    unhandledRejections w ++ [e].
Proof.
  intros Hok Hset. rewrite createUserSession_eq, Hok.
  cbn [fst snd unhandledRejections]. rewrite Hset. split; reflexivity.
Qed.

(** The two sibling methods await their store call, and its failure is the
    failure of the method. *)
Lemma getUserSession_surfaces_getData_failure
    (uuid : string) (w : World St) (e : Exn) :
  getData uuid (_sessionStore w) = Rejected e ->
  fst (getUserSession uuid w) = Rejected e.
Proof. intros Hget. rewrite getUserSession_eq, Hget. reflexivity. Qed.

Lemma destroyUserSession_surfaces_removeData_failure
    (uuid : string) (w : World St) (e : Exn) :
  falsy uuid = false ->
  validateUUID uuid = true ->
  fst (removeData uuid (_sessionStore w)) = Rejected e ->
  fst (destroyUserSession uuid w) = Rejected e.
Proof.
  intros Hne Hvalid Hrm. rewrite destroyUserSession_eq, Hne, Hvalid.
  cbn [fst]. rewrite Hrm. reflexivity.
Qed.

(** C10. [getUserSession] never mutates the store: whatever its outcome, it
    issues exactly one [getData] and no other store call, and the store
    state after the call is the state before it. *)
Theorem getUserSession_frame (uuid : string) (w : World St) :
  _sessionStore (snd (getUserSession uuid w)) = _sessionStore w /\
  storeCalls (snd (getUserSession uuid w)) = storeCalls w ++ [GetData uuid] /\
  unhandledRejections (snd (getUserSession uuid w)) = unhandledRejections w.
Proof. rewrite getUserSession_eq. repeat split; reflexivity. Qed.
End AnyStore.

(** ** Properties over a store that meets its contract *)
Section LawfulStore.
Context {St : Type} {store : Store St} {contract : StoreContract St}.
Context {utils : SessionUtils.Impl} {json : JSON.Impl}.
Import UserSession SessionUtils.

(** One successful create: it resolves with the derived id and the record
    at that id is the serialized bundle; the other records stay. *)
Lemma createUserSession_contents
    (sub : string) (sessionData : JSValue) (w : World St) :
  falsy (createUUID sub) = false ->
  fst (createUserSession sub sessionData w) = Resolved (createUUID sub) /\
  contents (_sessionStore (snd (createUserSession sub sessionData w))) =
    <[createUUID sub := JSON.stringify sessionData]>
      (contents (_sessionStore w)).
Proof.
  intros Hok. rewrite createUserSession_eq, Hok. cbn [fst snd _sessionStore].
  split; [reflexivity|]. apply setData_contents.
Qed.

(** One valid destroy: it resolves with [true] and removes the key. *)
Lemma destroyUserSession_valid (uuid : string) (w : World St) :
  validateUUID uuid = true ->
  fst (destroyUserSession uuid w) = Resolved true /\
  contents (_sessionStore (snd (destroyUserSession uuid w))) =
    delete uuid (contents (_sessionStore w)).
Proof.
  intros Hvalid. rewrite destroyUserSession_eq, Hvalid. cbn zeta.
  set (w1 := if falsy uuid then _ else w).
  assert (_sessionStore w1 = _sessionStore w) as Hsame
    by (subst w1; destruct (falsy uuid); reflexivity).
  destruct (removeData_contents uuid (_sessionStore w1)) as [Hr Hc].
  cbn [fst snd _sessionStore]. rewrite Hr, Hc, Hsame. split; reflexivity.
Qed.

(** C4. For every identifier the validator accepts, [destroyUserSession]
    resolves with [true] whether or not a record exists at the identifier,
    and so does a second call right after the first; after either call no
    record is left at the identifier. *)
Theorem destroy_twice (uuid : string) (w : World St) :
  validateUUID uuid = true ->
  let first := destroyUserSession uuid w in
  let second := destroyUserSession uuid (snd first) in
  fst first = Resolved true /\
  fst second = Resolved true /\
  contents (_sessionStore (snd first)) =
    delete uuid (contents (_sessionStore w)) /\
  contents (_sessionStore (snd second)) =
    delete uuid (contents (_sessionStore w)).
Proof.
  intros Hvalid first second.
  destruct (destroyUserSession_valid uuid w Hvalid) as [Hr1 Hc1].
  destruct (destroyUserSession_valid uuid (snd first) Hvalid) as [Hr2 Hc2].
  subst second first. repeat split; try assumption.
  rewrite Hc2, Hc1. apply delete_delete_eq.
Qed.

(** C6, as the code has it.  When no record exists at the identifier,
    [getUserSession] rejects with the store's not-found signal, passed on
    as it is.  When the stored text cannot be parsed, it rejects with the
    very exception [JSON.parse] threw, which is a raw one and not a coded
    exception of the class. *)
Theorem getUserSession_failures (uuid : string) (w : World St) :
  (contents (_sessionStore w) !! uuid = None ->
   fst (getUserSession uuid w) = Rejected not_found) /\
  (forall (text : string) (e : Exn),
     contents (_sessionStore w) !! uuid = Some text ->
     JSON.parse text = Throw e ->
     fst (getUserSession uuid w) = Rejected e).
Proof.
  rewrite getUserSession_eq, getData_contents. cbn [fst]. split.
  - intros ->. reflexivity.
  - intros text e -> ->. reflexivity.
Qed.
End LawfulStore.

(** ** The demo codec on token bundles

    [Demo.parse] reads back what [Demo.stringify] writes for every token
    bundle, whatever bytes its keys and values hold. *)
Section DemoCodec.
Import Demo.
#[local] Arguments String.append !_ _ / : simpl nomatch.

Lemma string_append_assoc (a b c : string) :
  (a +:+ b) +:+ c = a +:+ (b +:+ c).
Proof.
  induction a as [|x a IH]; [reflexivity|]. simpl. f_equal. exact IH.
Qed.

Lemma string_length_append (a b : string) :
  String.length (a +:+ b) = String.length a + String.length b.
Proof. induction a as [|x a IH]; simpl; [reflexivity|]. now rewrite IH. Qed.

(** One character, escaped by the serializer, is read back as itself. *)
Lemma parse_chars_escape_char (c : ascii) (r : string) :
  parse_chars (escape_char c +:+ r) =
  match parse_chars r with
  | Some (s, r') => Some (String c s, r')
  | None => None
  end.
Proof.
  destruct c as [[] [] [] [] [] [] [] []];
    repeat (progress (simpl; lazy -[parse_chars]));
    destruct (parse_chars r) as [[s r']|]; reflexivity.
Qed.

Lemma parse_chars_escape (s r : string) :
  parse_chars (escape s +:+ String dquote r) = Some (s, r).
Proof.
  induction s as [|c s IH]; [reflexivity|].
  cbn [escape].
  rewrite string_append_assoc, parse_chars_escape_char, IH. reflexivity.
Qed.

Lemma quote_append (s r : string) :
  quote s +:+ r = String dquote (escape s +:+ String dquote r).
Proof. unfold quote. rewrite string_append_assoc. reflexivity. Qed.

Lemma member_append (kv : string * string) (r : string) :
  member kv +:+ r =
  String dquote (escape (fst kv) +:+ String dquote (String ":"
    (String dquote (escape (snd kv) +:+ String dquote r)))).
Proof.
  unfold member. rewrite !string_append_assoc, (quote_append (snd kv)).
  rewrite quote_append. reflexivity.
Qed.

Lemma parse_value_quote (fuel : nat) (s r : string) :
  fuel <> 0 ->
  parse_value fuel (String dquote (escape s +:+ String dquote r)) =
  Some (JSString s, r).
Proof.
  destruct fuel as [|fuel]; [congruence|]. intros _.
  simpl. rewrite parse_chars_escape. reflexivity.
Qed.

Lemma join_members_cons (kv kv' : string * string) fields :
  join "," (List.map member (kv :: kv' :: fields)) =
  member kv +:+ "," +:+ join "," (List.map member (kv' :: fields)).
Proof. reflexivity. Qed.

Lemma lookup_property_fresh
    (key : string) (fields : list (string * string)) :
  existsb (String.eqb key) (List.map fst fields) = false ->
  lookup_property key
    (List.map (fun kv => (fst kv, JSString (snd kv))) fields) = None.
Proof.
  induction fields as [|kv fields IH]; [reflexivity|].
  cbn [List.map existsb lookup_property fst snd].
  intros Hfresh. apply orb_false_iff in Hfresh as [-> Hrest]. auto.
Qed.

(** A member with a key of its own, not an array index, read before the
    members of a bundle: its property comes first. *)
Lemma define_property_fresh
    (kv : string * string) (v : JSValue) (fields : list (string * string)) :
  plain_keys (kv :: fields) = true ->
  define_property (fst kv) v
    (List.map (fun kv => (fst kv, JSString (snd kv))) fields) =
  (fst kv, v) :: List.map (fun kv => (fst kv, JSString (snd kv))) fields.
Proof.
  unfold plain_keys. cbn [List.map distinct forallb].
  rewrite !andb_true_iff, !negb_true_iff.
  intros [[Hfresh _] [Hplain Hrest]].
  unfold define_property. rewrite (lookup_property_fresh _ _ Hfresh), Hplain.
  destruct fields as [|kv' fields]; [reflexivity|].
  cbn [forallb] in Hrest.
  apply andb_true_iff in Hrest as [Hplain' _].
  apply negb_true_iff in Hplain'.
  cbn [List.map insert_first fst]. rewrite Hplain'. reflexivity.
Qed.

Lemma plain_keys_tail
    (kv : string * string) (fields : list (string * string)) :
  plain_keys (kv :: fields) = true -> plain_keys fields = true.
Proof.
  unfold plain_keys. cbn [List.map distinct forallb].
  rewrite !andb_true_iff. intros [[_ Hd] [_ Hf]]. auto.
Qed.

(** The properties of a bundle, up to the closing brace; the descent is one
    level per property. *)
Lemma parse_members_fields (fields : list (string * string)) :
  forall (kv : string * string) (fuel : nat) (r : string),
    plain_keys (kv :: fields) = true ->
    length fields + 2 <= fuel ->
    parse_members fuel
      (join "," (List.map member (kv :: fields)) +:+ String "}" r) =
    Some (List.map (fun kv => (fst kv, JSString (snd kv))) (kv :: fields), r).
Proof.
  induction fields as [|kv' fields IH]; intros kv fuel r Hkeys Hfuel;
    (destruct fuel as [|fuel]; [simpl in Hfuel; lia|]).
  - cbn [List.map join]. rewrite member_append.
    simpl. rewrite parse_chars_escape. simpl.
    rewrite parse_value_quote by (simpl in Hfuel; lia). reflexivity.
  - rewrite join_members_cons, !string_append_assoc.
    pose proof (IH kv' fuel r (plain_keys_tail _ _ Hkeys)
                  ltac:(simpl in Hfuel; lia)) as Htail.
    pose proof (define_property_fresh kv (JSString (snd kv)) _ Hkeys)
      as Hfirst.
    set (tail := join "," (List.map member (kv' :: fields)) +:+ String "}" r)
      in *.
    set (props := List.map _ (kv' :: fields)) in *.
    rewrite member_append.
    simpl. rewrite parse_chars_escape. simpl.
    rewrite parse_value_quote by (simpl in Hfuel; lia). simpl.
    rewrite Htail, Hfirst. reflexivity.
Qed.

Lemma serialize_token_bundle (fields : list (string * string)) :
  serialize (token_bundle fields) =
  Some (String "{" (join "," (List.map member fields) +:+ "}")).
Proof.
  unfold token_bundle. cbn [serialize].
  match goal with
  | |- Some (_ +:+ join _ (?members _) +:+ _) = _ =>
      assert (forall fs,
                members (List.map (fun kv => (fst kv, JSString (snd kv))) fs)
                = List.map member fs) as ->
  end; [|reflexivity].
  induction fs as [|kv fs IH]; [reflexivity|].
  cbn [List.map serialize snd fst]. rewrite IH. reflexivity.
Qed.

Lemma stringify_token_bundle (fields : list (string * string)) :
  stringify (token_bundle fields) =
  String "{" (join "," (List.map member fields) +:+ "}").
Proof. unfold stringify. rewrite serialize_token_bundle. reflexivity. Qed.

Lemma join_members_head
    (kv : string * string) (fields : list (string * string)) (r : string) :
  exists t, join "," (List.map member (kv :: fields)) +:+ r = String dquote t.
Proof.
  destruct fields as [|kv' fields].
  - cbn [List.map join]. rewrite member_append. eauto.
  - rewrite join_members_cons, !string_append_assoc, member_append. eauto.
Qed.

Lemma join_members_length (fields : list (string * string)) :
  length fields <= String.length (join "," (List.map member fields)).
Proof.
  induction fields as [|kv [|kv' fields] IH].
  - reflexivity.
  - cbn [List.map join]. unfold member, quote. simpl. lia.
  - rewrite join_members_cons, !string_length_append. simpl in *. lia.
Qed.

Theorem parse_stringify_token_bundle (fields : list (string * string)) :
  plain_keys fields = true ->
  parse (stringify (token_bundle fields)) = Normal (token_bundle fields).
Proof.
  intros Hkeys. unfold parse. rewrite stringify_token_bundle.
  destruct fields as [|kv fields]; [reflexivity|].
  set (text := String "{" _).
  assert (length fields + 3 <= 2 * String.length text + 2) as Hfuel.
  { subst text. cbn [String.length]. rewrite string_length_append.
    pose proof (join_members_length (kv :: fields)) as Hlen.
    cbn [length] in Hlen. lia. }
  destruct (2 * String.length text + 2) as [|fuel]; [lia|].
  pose proof (parse_members_fields fields kv fuel "" Hkeys ltac:(lia)) as Hm.
  destruct (join_members_head kv fields (String "}" "")) as [t Ht].
  subst text. unfold token_bundle.
  change (join "," (List.map member (kv :: fields)) +:+ "}")
    with (join "," (List.map member (kv :: fields)) +:+ String "}" "").
  rewrite Ht in Hm |- *. simpl. rewrite Hm. reflexivity.
Qed.
End DemoCodec.

(** ** The properties on concrete runs *)
Section Runs.
Import UserSession.

Lemma destroyUserSession_invalid_id_witness :
  Demo.destroy "not-a-real-id-shape" signed_in =
  (Rejected AUTH_CORE_RAT1_NV01, signed_in).
Proof.
  apply (@destroyUserSession_invalid_id _ Demo.memory Demo.utils
           "not-a-real-id-shape" signed_in); reflexivity.
Defined.

Lemma createUserSession_derivation_fails_witness :
  Demo.create "" Demo.bundle signed_in =
  (Rejected NODE_CORE_CUS1_NF01, signed_in).
Proof.
  apply (@createUserSession_derivation_fails _ Demo.memory Demo.utils
           Demo.json "" Demo.bundle signed_in); reflexivity.
Defined.

Lemma createUserSession_swallows_setData_failure_witness :
  fst (@createUserSession _ Demo.unavailable Demo.utils Demo.json
         "user-42" Demo.bundle (Demo.start tt)) = Resolved Demo.user42 /\
  unhandledRejections
    (snd (@createUserSession _ Demo.unavailable Demo.utils Demo.json
            "user-42" Demo.bundle (Demo.start tt))) =
  [Error "store unavailable"].
Proof.
  apply (@createUserSession_swallows_setData_failure _ Demo.unavailable
           Demo.utils Demo.json "user-42" Demo.bundle (Demo.start tt)
           (Error "store unavailable")); reflexivity.
Defined.

Lemma destroy_twice_witness :
  let first := Demo.destroy Demo.user42 signed_in in
  let second := Demo.destroy Demo.user42 (snd first) in
  fst first = Resolved true /\
  fst second = Resolved true /\
  _sessionStore (snd first) = delete Demo.user42 (_sessionStore signed_in) /\
  _sessionStore (snd second) = delete Demo.user42 (_sessionStore signed_in).
Proof.
  apply (@destroy_twice _ Demo.memory memory_contract Demo.utils
           Demo.user42 signed_in); reflexivity.
Defined.

Lemma getUserSession_failures_witness :
  fst (Demo.get Demo.user42 (Demo.start ∅)) = Rejected (Error "not found") /\
  fst (Demo.get Demo.user42 corrupted) = Rejected SyntaxError.
Proof.
  split.
  - apply (proj1 (@getUserSession_failures _ Demo.memory memory_contract
                    Demo.json Demo.user42 (Demo.start ∅))); reflexivity.
  - apply (proj2 (@getUserSession_failures _ Demo.memory memory_contract
                    Demo.json Demo.user42 corrupted) "not json" SyntaxError);
      reflexivity.
Defined.

(** C6 as stated fails here: the record at the identifier cannot be
    deserialized, and [getUserSession] rejects with the parser's own
    [SyntaxError], which does not carry the structured kind. *)
Lemma getUserSession_corrupt_counterexample :
  _sessionStore corrupted !! Demo.user42 = Some "not json" /\
  Demo.parse "not json" = Throw SyntaxError /\
  fst (Demo.get Demo.user42 corrupted) = Rejected SyntaxError /\
  is_structured SyntaxError = false.
Proof. repeat split; reflexivity. Qed.

(** The empty identifier on the demo implementations: the outcome is the
    invalid-identifier exception, the missing-identifier one is left
    unhandled, and the store is not called. *)
Example destroy_empty_id_run :
  Demo.destroy "" signed_in =
  (Rejected AUTH_CORE_RAT1_NV01,
   mkWorld (_sessionStore signed_in) [] [NODE_CORE_DUS1_NF01]).
Proof. reflexivity. Qed.

(** The end-to-end scenario of section 8: create, read back, destroy, and
    a read that finds nothing. *)
Example end_to_end :
  let created := Demo.create "user-42" Demo.bundle (Demo.start ∅) in
  let read := Demo.get Demo.user42 (snd created) in
  let destroyed := Demo.destroy Demo.user42 (snd read) in
  let read_again := Demo.get Demo.user42 (snd destroyed) in
  fst created = Resolved Demo.user42 /\
  fst read = Resolved Demo.bundle /\
  fst destroyed = Resolved true /\
  fst read_again = Rejected (Error "not found") /\
  storeCalls (snd read_again) =
    [SetData Demo.user42 (Demo.stringify Demo.bundle); GetData Demo.user42;
     RemoveData Demo.user42; GetData Demo.user42] /\
  unhandledRejections (snd read_again) = [].
Proof. repeat split; reflexivity. Qed.
End Runs.

(** ** More about the four methods

    Further properties read off [user-session.ts]: how the methods compose
    over one store, what each leaves alone, and what each does when a
    collaborator fails. *)

(** A deriver that keeps the first eight characters of the subject, with
    the validator of [Demo.utils]: no id has the shape the validator asks
    for. *)
Definition prefix_utils : SessionUtils.Impl := {|
  SessionUtils.createUUID := substring 0 8;
  SessionUtils.validateUUID := SessionUtils.validateUUID (Impl := Demo.utils)
|}.

(** ** Store traffic and unhandled rejections, over every store *)
Section Traffic.
Context {St : Type} {store : Store St}.
Context {utils : SessionUtils.Impl} {json : JSON.Impl}.
Import UserSession SessionUtils.

(** X1. The store calls of each method, whatever the store answers:
    [createUserSession] issues one [setData] at the derived id and nothing
    else (no read before the write), or no call at all when the derivation
    failed; [getUserSession] issues one [getData]; [getUUID] issues none;
    [destroyUserSession] issues one [removeData] exactly when the validator
    accepts the identifier, the empty one included, and none otherwise. *)
Theorem store_traffic
    (sub uuid : string) (sessionData : JSValue) (w : World St) :
  storeCalls (snd (createUserSession sub sessionData w)) =
    storeCalls w ++
    (if falsy (createUUID sub) then []
     else [SetData (createUUID sub) (JSON.stringify sessionData)]) /\
  storeCalls (snd (getUserSession uuid w)) = storeCalls w ++ [GetData uuid] /\
  storeCalls (snd (getUUID sub w)) = storeCalls w /\
  storeCalls (snd (destroyUserSession uuid w)) =
    storeCalls w ++ (if validateUUID uuid then [RemoveData uuid] else []).
Proof.
  rewrite createUserSession_eq, getUserSession_eq, destroyUserSession_eq.
  repeat split.
  - destruct (falsy (createUUID sub)); cbn [snd storeCalls];
      [rewrite app_nil_r|]; reflexivity.
  - cbn zeta.
    destruct (validateUUID uuid), (falsy uuid); cbn [snd storeCalls];
      rewrite ?app_nil_r; reflexivity.
Qed.

(** X2. A failure of the store call that [getUserSession] or
    [destroyUserSession] awaits is the failure of the method: it rejects
    with the store's own exception, unchanged; in particular
    [destroyUserSession] does not resolve with [true] when the removal
    failed, and [getUserSession] does not go on to parse. *)
Theorem awaited_store_failure_surfaces
    (uuid : string) (w : World St) (e : Exn) :
  (getData uuid (_sessionStore w) = Rejected e ->
   fst (getUserSession uuid w) = Rejected e) /\
  (validateUUID uuid = true ->
   fst (removeData uuid (_sessionStore w)) = Rejected e ->
   fst (destroyUserSession uuid w) = Rejected e).
Proof.
  split.
  - intros Hget. rewrite getUserSession_eq, Hget. reflexivity.
  - intros Hvalid Hrm. rewrite destroyUserSession_eq, Hvalid. cbn zeta.
    destruct (falsy uuid); cbn [fst _sessionStore]; rewrite Hrm; reflexivity.
Qed.

(** X3. [getUUID] has no failure check of its own: for a subject whose
    derivation fails it resolves, with the empty identifier, and leaves the
    world alone, where [createUserSession] rejects for the same subject. *)
Theorem getUUID_resolves_when_derivation_fails
    (sub : string) (sessionData : JSValue) (w : World St) :
  falsy (createUUID sub) = true ->
  getUUID sub w = (Resolved "", w) /\
  fst (createUserSession sub sessionData w) = Rejected NODE_CORE_CUS1_NF01.
Proof.
  intros Hfail. rewrite createUserSession_eq, getUUID_eq, Hfail.
  apply String.eqb_eq in Hfail. rewrite Hfail. split; reflexivity.
Qed.

(** X8. [createUserSession] never consults the validator.  When the
    derived id is not empty but is one the validator rejects, the create
    still issues its write at that id and resolves with it; a
    [destroyUserSession] on the returned id then fails with
    [AUTH_CORE-RAT1-NV01] and leaves the world as the create left it, with
    no store call of its own. *)
Theorem create_ignores_validator
    (sub : string) (sessionData : JSValue) (w : World St) :
  falsy (createUUID sub) = false ->
  validateUUID (createUUID sub) = false ->
  let created := createUserSession sub sessionData w in
  fst created = Resolved (createUUID sub) /\
  storeCalls (snd created) =
    storeCalls w ++ [SetData (createUUID sub) (JSON.stringify sessionData)] /\
  destroyUserSession (createUUID sub) (snd created) =
    (Rejected AUTH_CORE_RAT1_NV01, snd created).
Proof.
  intros Hok Hbad created. subst created.
  rewrite destroyUserSession_eq, Hok, Hbad, createUserSession_eq, Hok.
  repeat split; reflexivity.
Qed.
End Traffic.

(** ** The lifecycle of a session, over a store that meets its contract *)
Section Lifecycle.
Context {St : Type} {store : Store St} {contract : StoreContract St}.
Context {utils : SessionUtils.Impl} {json : JSON.Impl}.
Import UserSession SessionUtils.

(** What a read answers is decided by the record at the identifier. *)
Lemma getUserSession_contents (uuid : string) (w : World St) :
  fst (getUserSession uuid w) =
  match contents (_sessionStore w) !! uuid with
  | Some text =>
      match JSON.parse text with
      | Normal parsed => Resolved parsed
      | Throw e => Rejected e
      end
  | None => Rejected not_found
  end.
Proof.
  rewrite getUserSession_eq, getData_contents. cbn [fst].
  destruct (contents (_sessionStore w) !! uuid); reflexivity.
Qed.

(** X4. Absent after a destroy: when [destroyUserSession] has resolved for
    an identifier the validator accepts, whatever record the store held
    there, a following [getUserSession] on the identifier rejects with the
    store's not-found signal. *)
Theorem destroy_then_get (uuid : string) (w : World St) :
  validateUUID uuid = true ->
  let destroyed := destroyUserSession uuid w in
  fst destroyed = Resolved true /\
  fst (getUserSession uuid (snd destroyed)) = Rejected not_found.
Proof.
  intros Hvalid destroyed.
  destruct (destroyUserSession_valid uuid w Hvalid) as [Hr Hc].
  fold destroyed in Hr, Hc. split; [exact Hr|].
  rewrite getUserSession_contents, Hc, lookup_delete_eq. reflexivity.
Qed.

(** X5. Creating a session leaves every other session as it was: a read
    at any identifier other than the derived one answers after the create
    what it answered before. *)
Theorem createUserSession_isolated
    (sub key : string) (sessionData : JSValue) (w : World St) :
  falsy (createUUID sub) = false ->
  String.eqb key (createUUID sub) = false ->
  fst (getUserSession key (snd (createUserSession sub sessionData w))) =
  fst (getUserSession key w).
Proof.
  intros Hok Hother. apply String.eqb_neq in Hother.
  destruct (createUserSession_contents sub sessionData w Hok) as [_ Hc].
  rewrite !getUserSession_contents, Hc, lookup_insert_ne by congruence.
  reflexivity.
Qed.

(** X6. Destroying a session leaves every other session as it was: a read
    at any identifier other than the destroyed one answers after the
    destroy what it answered before. *)
Theorem destroyUserSession_isolated (uuid key : string) (w : World St) :
  validateUUID uuid = true ->
  String.eqb key uuid = false ->
  fst (getUserSession key (snd (destroyUserSession uuid w))) =
  fst (getUserSession key w).
Proof.
  intros Hvalid Hother. apply String.eqb_neq in Hother.
  destruct (destroyUserSession_valid uuid w Hvalid) as [_ Hc].
  rewrite !getUserSession_contents, Hc, lookup_delete_ne by congruence.
  reflexivity.
Qed.

(** X9. Over a store that meets its contract no method leaves a rejected
    promise unhandled, with one exception: [destroyUserSession] on the
    empty identifier, which leaves [NODE_CORE-DUS1-NF01] behind whatever the
    validator says. *)
Theorem unhandled_rejections
    (sub uuid : string) (sessionData : JSValue) (w : World St) :
  unhandledRejections (snd (createUserSession sub sessionData w)) =
    unhandledRejections w /\
  unhandledRejections (snd (getUserSession uuid w)) = unhandledRejections w /\
  unhandledRejections (snd (getUUID sub w)) = unhandledRejections w /\
  unhandledRejections (snd (destroyUserSession uuid w)) =
    unhandledRejections w ++
    (if falsy uuid then [NODE_CORE_DUS1_NF01] else []).
Proof.
  rewrite createUserSession_eq, getUserSession_eq, destroyUserSession_eq.
  repeat split.
  - destruct (falsy (createUUID sub)); [reflexivity|].
    cbn [snd unhandledRejections].
    destruct (setData_contents (createUUID sub) (JSON.stringify sessionData)
                (_sessionStore w)) as [-> _].
    apply app_nil_r.
  - cbn zeta.
    destruct (validateUUID uuid), (falsy uuid);
      cbn [snd unhandledRejections]; rewrite ?app_nil_r; reflexivity.
Qed.
End Lifecycle.

(** ** These properties on concrete runs *)
Section MoreRuns.
Import UserSession.

(** The store that is down, under a session id of the right shape. *)
Lemma awaited_store_failure_surfaces_witness :
  fst (@getUserSession _ Demo.unavailable Demo.json Demo.user42
         (Demo.start tt)) = Rejected (Error "store unavailable") /\
  fst (@destroyUserSession _ Demo.unavailable Demo.utils Demo.user42
         (Demo.start tt)) = Rejected (Error "store unavailable").
Proof.
  split.
  - apply (proj1 (@awaited_store_failure_surfaces _ Demo.unavailable
                    Demo.utils Demo.json Demo.user42 (Demo.start tt)
                    (Error "store unavailable"))); reflexivity.
  - apply (proj2 (@awaited_store_failure_surfaces _ Demo.unavailable
                    Demo.utils Demo.json Demo.user42 (Demo.start tt)
                    (Error "store unavailable"))); reflexivity.
Defined.

Lemma getUUID_resolves_when_derivation_fails_witness :
  @getUUID _ Demo.utils "" signed_in = (Resolved "", signed_in) /\
  fst (Demo.create "" Demo.bundle signed_in) = Rejected NODE_CORE_CUS1_NF01.
Proof.
  apply (@getUUID_resolves_when_derivation_fails _ Demo.memory Demo.utils
           Demo.json "" Demo.bundle signed_in); reflexivity.
Defined.

(** Another subject signs in while the first session is in the store. *)
Lemma createUserSession_isolated_witness :
  fst (Demo.get Demo.user42
         (snd (Demo.create "user-43" (Demo.token_bundle [("idToken", "IT3")])
                 signed_in))) =
  fst (Demo.get Demo.user42 signed_in).
Proof.
  apply (@createUserSession_isolated _ Demo.memory memory_contract Demo.utils
           Demo.json "user-43" Demo.user42
           (Demo.token_bundle [("idToken", "IT3")]) signed_in); reflexivity.
Defined.

(** A session that is not in the store is destroyed beside the first. *)
Lemma destroyUserSession_isolated_witness :
  let other := "00000000-0000-5000-8000-000000000000" in
  fst (Demo.get Demo.user42 (snd (Demo.destroy other signed_in))) =
  fst (Demo.get Demo.user42 signed_in).
Proof.
  apply (@destroyUserSession_isolated _ Demo.memory memory_contract Demo.utils
           Demo.json "00000000-0000-5000-8000-000000000000" Demo.user42
           signed_in); reflexivity.
Defined.


(** The session of the scenario is in the store and is destroyed. *)
Lemma destroy_then_get_witness :
  let destroyed := Demo.destroy Demo.user42 signed_in in
  fst destroyed = Resolved true /\
  fst (Demo.get Demo.user42 (snd destroyed)) = Rejected (Error "not found").
Proof.
  apply (@destroy_then_get _ Demo.memory memory_contract Demo.utils Demo.json
           Demo.user42 signed_in); reflexivity.
Defined.

(** An id of eight characters does not have the shape the validator
    accepts. *)
Lemma create_ignores_validator_witness :
  let created :=
    @createUserSession _ Demo.memory prefix_utils Demo.json
      "user-42-alice" Demo.bundle (Demo.start ∅) in
  fst created = Resolved "user-42-" /\
  storeCalls (snd created) =
    [SetData "user-42-" (Demo.stringify Demo.bundle)] /\
  @destroyUserSession _ Demo.memory prefix_utils "user-42-" (snd created) =
    (Rejected AUTH_CORE_RAT1_NV01, snd created).
Proof.
  apply (@create_ignores_validator _ Demo.memory prefix_utils Demo.json
           "user-42-alice" Demo.bundle (Demo.start ∅)); reflexivity.
Defined.
End MoreRuns.

(** ** The round trip, and the writes that [createUserSession] leaves in
    flight *)
Section RoundTrip.
Context {St : Type} {store : Store St} {eventual : EventualStore St}.
Context {utils : SessionUtils.Impl}.
Import UserSession SessionUtils.

End RoundTrip.

Section RoundTripRuns.
Import UserSession.



(** C9.  On the deferred store, two creates for one subject have both
    resolved with the id while neither write has landed: the store holds
    no record for the subject, a read at the id finds nothing, and the two
    writes are in flight.  The promise of [setData] is not awaited (line
    46), so nothing in the method orders the writes or waits for them. *)
Theorem create_twice_writes_in_flight :
  let b2 := Demo.token_bundle [("accessToken", "AT2"); ("idToken", "IT2")] in
  let first :=
    @createUserSession _ Demo.deferred Demo.utils Demo.json "user-42"
      Demo.bundle (Demo.start (∅, [])) in
  let second :=
    @createUserSession _ Demo.deferred Demo.utils Demo.json "user-42"
      b2 (snd first) in
  fst first = Resolved Demo.user42 /\
  fst second = Resolved Demo.user42 /\
  fst (_sessionStore (snd second)) = ∅ /\
  snd (_sessionStore (snd second)) =
    [(Demo.user42, Demo.stringify Demo.bundle);
     (Demo.user42, Demo.stringify b2)] /\
  fst (@getUserSession _ Demo.deferred Demo.json Demo.user42 (snd second)) =
    Rejected (Error "not found").
Proof. repeat split; reflexivity. Qed.
End RoundTripRuns.
